(** * Chat message route: usage gate, history formatting, persistence

    Shallow embedding of the [POST /api/chat/message] handler
    (src/unnamed/part_000, second router, lines 122-371) and of the
    [POST /related] handler (src/backend/routes/gemini.js, lines 122-160);
    then of the profile routes (part_000 lines 8-50), the settings routes
    (src/backend/routes/settings.js) and [POST /speech] (gemini.js lines
    7-37).

    Storage calls go through the Supabase/PostgREST client.  The handler
    itself reads every query as a response object [{ data, error }]
    (lines 148, 188: [const { data: profile, error: profileError } = ...],
    [let { data: usage } = ...]); the sibling routes of the same repository
    re-raise with [if (error) throw error;] (lines 20, 39, 87).  A storage
    call is therefore modelled as a function of the database returning a
    response record; it never raises.  The remote generation call is the
    only awaited call that raises. *)

From Stdlib Require Import String Ascii ZArith List Bool Lia.
From stdpp Require Import base gmap strings list.
Import ListNotations.
Open Scope string_scope.
Open Scope Z_scope.
#[local] Set Warnings "-register-all".

(** ** Rows of the relational store *)

Record AuthUser := mkAuthUser {
  au_id : string;
  au_role : option string;            (* user.role *)
  au_meta_role : option string;       (* user.user_metadata?.role *)
  au_app_role : option string         (* user.app_metadata?.role *)
}.

Record Profile := mkProfile {
  pr_role : option string             (* profile?.role *)
}.

Record ChatSession := mkChatSession {
  cs_user_id : string;
  cs_title : string;
  cs_region : string;
  cs_country : string;
  cs_updated_at : option string
}.

Record ChatMessage := mkChatMessage {
  cm_session_id : string;
  cm_user_id : string;
  cm_role : string;
  cm_content : string
}.

Record DB := mkDB {
  profiles : gmap string Profile;
  question_usage : gmap string Z;     (* user_id -> questions_count *)
  chat_sessions : gmap string ChatSession;
  chat_messages : list ChatMessage    (* in insertion order *)
}.

(** The error object of a PostgREST response, and of a raised JS error. *)
Record PgError := mkPgError {
  code : option string;
  message : option string;
  details : option string
}.

Inductive RowData :=
| DProfile (p : Profile)
| DUsage (questions_count : Z).

Record PgResponse := mkPgResponse {
  data : option RowData;
  error : option PgError
}.

(** The queries the handler issues, one constructor per call site. *)
Inductive Query :=
| SelectProfile (user_id : string)                       (* lines 148-152 *)
| SelectUsage (user_id : string)                         (* lines 188-192 *)
| InsertUsage (user_id : string) (questions_count : Z)   (* line 205 *)
| UpdateUsage (user_id : string) (questions_count : Z)   (* lines 207-209 *)
| InsertMessage (m : ChatMessage)                        (* lines 289, 297 *)
| TouchSession (session_id now : string)                 (* lines 305-307 *)
| InsertSession (session_id : string) (s : ChatSession)  (* lines 323-329 *)
| UpdateTitle (session_id title : string).               (* line 347 *)

(** ** A store with the schema the handler relies on

    [chat_messages.session_id] references [chat_sessions.id] (the handler
    matches the PostgreSQL message for it, line 319); [question_usage]
    and [chat_sessions] are keyed by [user_id] and [id].  [.single()] on no
    row answers with error PGRST116 and no data; an update matching no row
    answers without error. *)

Definition dq : string := String (ascii_of_nat 34) EmptyString.

Definition no_rows_error : PgError :=
  mkPgError (Some "PGRST116") (Some "JSON object requested, multiple (or no) rows returned")
            (Some "The result contains 0 rows").

Definition unique_error : PgError :=
  mkPgError (Some "23505") (Some "duplicate key value violates unique constraint") None.

Definition session_fk_error (sid : string) : PgError :=
  mkPgError (Some "23503")
    (Some ("insert or update on table " ++ dq ++ "chat_messages" ++ dq ++
           " violates foreign key constraint " ++ dq ++ "chat_messages_session_id_fkey" ++ dq))
    (Some ("Key (session_id)=(" ++ sid ++ ") is not present in table " ++ dq ++
           "chat_sessions" ++ dq ++ ".")).

Definition ok_resp (d : option RowData) : PgResponse := mkPgResponse d None.
Definition err_resp (e : PgError) : PgResponse := mkPgResponse None (Some e).

Definition set_usage (db : DB) (u : gmap string Z) : DB :=
  mkDB (profiles db) u (chat_sessions db) (chat_messages db).
Definition set_sessions (db : DB) (s : gmap string ChatSession) : DB :=
  mkDB (profiles db) (question_usage db) s (chat_messages db).
Definition set_messages (db : DB) (l : list ChatMessage) : DB :=
  mkDB (profiles db) (question_usage db) (chat_sessions db) l.

Definition db_exec (db : DB) (q : Query) : DB * PgResponse :=
  match q with
  | SelectProfile uid =>
      match profiles db !! uid with
      | Some p => (db, ok_resp (Some (DProfile p)))
      | None => (db, err_resp no_rows_error)
      end
  | SelectUsage uid =>
      match question_usage db !! uid with
      | Some c => (db, ok_resp (Some (DUsage c)))
      | None => (db, err_resp no_rows_error)
      end
  | InsertUsage uid c =>
      match question_usage db !! uid with
      | Some _ => (db, err_resp unique_error)
      | None => (set_usage db (<[uid := c]> (question_usage db)), ok_resp None)
      end
  | UpdateUsage uid c =>
      match question_usage db !! uid with
      | Some _ => (set_usage db (<[uid := c]> (question_usage db)), ok_resp None)
      | None => (db, ok_resp None)
      end
  | InsertMessage m =>
      match chat_sessions db !! cm_session_id m with
      | Some _ => (set_messages db (app (chat_messages db) [m]), ok_resp None)
      | None => (db, err_resp (session_fk_error (cm_session_id m)))
      end
  | TouchSession sid now =>
      match chat_sessions db !! sid with
      | Some s =>
          (set_sessions db (<[sid := mkChatSession (cs_user_id s) (cs_title s)
                                       (cs_region s) (cs_country s) (Some now)]>
                              (chat_sessions db)), ok_resp None)
      | None => (db, ok_resp None)
      end
  | InsertSession sid s =>
      match chat_sessions db !! sid with
      | Some _ => (db, err_resp unique_error)
      | None => (set_sessions db (<[sid := s]> (chat_sessions db)), ok_resp None)
      end
  | UpdateTitle sid t =>
      match chat_sessions db !! sid with
      | Some s =>
          (set_sessions db (<[sid := mkChatSession (cs_user_id s) t
                                       (cs_region s) (cs_country s) (cs_updated_at s)]>
                              (chat_sessions db)), ok_resp None)
      | None => (db, ok_resp None)
      end
  end.

(** ** History formatting (lines 264-274) *)

Record Turn := mkTurn { t_role : string; t_text : string }.

(** [{ role: msg.role === 'user' ? 'user' : 'model', parts: [{ text: msg.text }] }] *)
Record Content := mkContent { c_role : string; c_parts : list string }.

Definition format_turn (msg : Turn) : Content :=
  mkContent (if String.eqb (t_role msg) "user" then "user" else "model") [t_text msg].

(** [while (formattedHistory.length > 0 && formattedHistory[0].role === 'model')
       formattedHistory.shift();] *)
Fixpoint drop_leading_model (l : list Content) : list Content :=
  match l with
  | c :: l' => if String.eqb (c_role c) "model" then drop_leading_model l' else l
  | [] => []
  end.

Definition formatHistory (history : list Turn) : list Content :=
  drop_leading_model (map format_turn history).


(** ** The request handler as a state-and-exception computation *)

(** Observable calls, in order: storage queries and the generation call
    (with the history and message it was given). *)
Inductive Event :=
| EStore (q : Query)
| EGen (history : list Content) (msg : string).

Definition St : Type := (DB * list Event)%type.

Inductive Res (A : Type) :=
| Ok (a : A)
| Throw (e : PgError).
Arguments Ok {A} a.
Arguments Throw {A} e.

Definition M (A : Type) : Type := St -> St * Res A.

Definition ret {A} (a : A) : M A := fun st => (st, Ok a).
Definition throw {A} (e : PgError) : M A := fun st => (st, Throw e).
Definition bind {A B} (m : M A) (k : A -> M B) : M B :=
  fun st => match m st with
            | (st', Ok a) => k a st'
            | (st', Throw e) => (st', Throw e)
            end.
(** [try { m } catch (e) { h(e) }] *)
Definition try_catch {A} (m : M A) (h : PgError -> M A) : M A :=
  fun st => match m st with
            | (st', Ok a) => (st', Ok a)
            | (st', Throw e) => h e st'
            end.
Definition emit (ev : Event) : M unit :=
  fun '(db, tr) => ((db, app tr [ev]), Ok tt).

Notation "'do' x <- c1 ; c2" := (bind c1 (fun x => c2))
  (at level 60, x name, c1 at next level, right associativity).

Inductive HttpResponse :=
| Json200 (text model : string)          (* res.json({ text, model }) *)
| Status403 (err msg : string)
| Status500 (err det : string).

(** Outcome of [robustGemini.generateMessage]: resolves with
    [{ text, model }] or raises. *)
Inductive GenOutcome :=
| GenOk (text model : string)
| GenErr (e : PgError).

Record ChatRequest := mkChatRequest {
  rq_user : option AuthUser;        (* result of supabase.auth.getUser(token) *)
  rq_message : string;
  rq_history : list Turn;
  rq_region : option string;
  rq_country : option string;
  rq_sessionId : option string;     (* req.body.sessionId *)
  rq_now : string;                  (* new Date() *)
  rq_stamp : string                 (* new Date().toLocaleString('en-US', {...}) *)
}.

(** JS truthiness of an optional string: [undefined] and the empty string are falsy. *)
Definition truthy (o : option string) : option string :=
  match o with
  | Some s => if String.eqb s EmptyString then None else Some s
  | None => None
  end.

Definition or_default (o : option string) (d : string) : string :=
  match truthy o with Some s => s | None => d end.

Definition includes (s pat : string) : bool :=
  match String.index 0%nat pat s with Some _ => true | None => false end.

Definition opt_includes (o : option string) (pat : string) : bool :=
  match o with Some s => includes s pat | None => false end.

(** Line 319. *)
Definition isFkError (dbError : PgError) : bool :=
  match code dbError with Some c => String.eqb c "23503" | None => false end
  || opt_includes (message dbError) "foreign key"
  || opt_includes (details dbError)
       ("is not present in table " ++ dq ++ "chat_sessions" ++ dq).

Definition profile_of (r : PgResponse) : option Profile :=
  match data r with Some (DProfile p) => Some p | _ => None end.

Definition usage_of (r : PgResponse) : option Z :=
  match data r with Some (DUsage c) => Some c | _ => None end.

(** Lines 164-169: [[profile?.role, user.role, user.user_metadata?.role,
    user.app_metadata?.role].filter(Boolean)]. *)
Definition allRoles (profile : option Profile) (u : AuthUser) : list string :=
  List.filter (fun s => negb (String.eqb s EmptyString))
    (omap id [match profile with Some p => pr_role p | None => None end;
              au_role u; au_meta_role u; au_app_role u]).

Definition limit_message : string :=
  "You used your 5 free questions. Please upgrade your plan to continue.".

Section Handler.

(** The storage client, and which role names grant unlimited access. *)
Variable exec : DB -> Query -> DB * PgResponse.
Variable elevated : string -> bool.

Definition call (q : Query) : M PgResponse :=
  fun '(db, tr) => let '(db', r) := exec db q in ((db', app tr [EStore q]), Ok r).

(** Modelled from the spec: [hasUnlimitedAccess] of ../utils/accessControl
    (not in the sources).  Section 4.3: privileged when any one of the
    collected role signals claims elevated access. *)
Definition hasUnlimitedAccess (roles : list string) : bool :=
  existsb elevated roles.

(** Lines 146-211: [Some r] is the early [return res.status(403)...]. *)
Definition usage_gate (u : AuthUser) : M (option HttpResponse) :=
  do rp <- call (SelectProfile (au_id u));
  let profile := profile_of rp in
  if hasUnlimitedAccess (allRoles profile u) then ret None else
  do ru <- call (SelectUsage (au_id u));
  let usage := usage_of ru in
  let currentCount := match usage with Some c => c | None => 0 end in
  if 5 <=? currentCount then ret (Some (Status403 "LIMIT_REACHED" limit_message)) else
  do _ <- match usage with
          | None => call (InsertUsage (au_id u) 1)
          | Some _ => call (UpdateUsage (au_id u) (currentCount + 1))
          end;
  ret None.

(** Lines 277-283. *)
Definition generateMessage (gen : GenOutcome) (history : list Content) (msg : string)
  : M (string * string) :=
  do _ <- emit (EGen history msg);
  match gen with
  | GenOk text model => ret (text, model)
  | GenErr e => throw e
  end.

(** Lines 287-308: each [await] discards the query's response. *)
Definition persistMessages (sid uid msg responseText now : string) : M unit :=
  do _ <- call (InsertMessage (mkChatMessage sid uid "user" msg));
  do _ <- call (InsertMessage (mkChatMessage sid uid "model" responseText));
  do _ <- call (TouchSession sid now);
  ret tt.

(** Lines 310-348. *)
Definition persist_turn (req : ChatRequest) (uid sid responseText : string)
  (formattedHistory : list Content) : M unit :=
  let persist := persistMessages sid uid (rq_message req) responseText (rq_now req) in
  do persistenceSuccess <-
    try_catch (do _ <- persist; ret true)
      (fun dbError =>
         if isFkError dbError then
           try_catch
             (do _ <- call (InsertSession sid
                              (mkChatSession uid (rq_stamp req)
                                 (or_default (rq_region req) "International")
                                 (or_default (rq_country req) "International") None));
              do _ <- persist;
              ret true)
             (fun _retryError => ret false)
         else ret false);
  if persistenceSuccess && Nat.eqb (length formattedHistory) 0
  then do _ <- call (UpdateTitle sid (rq_stamp req)); ret tt
  else ret tt.

(** Lines 146-216: the access check of a logged-in caller; a guest
    passes. *)
Definition access_check (req : ChatRequest) : M (option HttpResponse) :=
  match rq_user req with
  | Some u => usage_gate u
  | None => ret None
  end.

(** Lines 218-351, after the access check.  The system instruction
    (lines 219-259) is a string built from the request and passed to the
    generation call; it is not modelled. *)
Definition respond (req : ChatRequest) (gen : GenOutcome) : M HttpResponse :=
  let formattedHistory := formatHistory (rq_history req) in
  do res <- generateMessage gen formattedHistory (rq_message req);
  let '(responseText, usedModel) := res in
  do _ <- match rq_user req, truthy (rq_sessionId req) with
          | Some u, Some sid => persist_turn req (au_id u) sid responseText formattedHistory
          | _, _ => ret tt
          end;
  ret (Json200 responseText usedModel).

Definition error_response (error : PgError) : HttpResponse :=
  Status500 (or_default (message error) "AI Generation Failed")
    "The AI is currently unavailable after multiple retries. Please try again later.".

(** Lines 144-370. *)
Definition post_message (req : ChatRequest) (gen : GenOutcome) : M HttpResponse :=
  try_catch
    (do early <- access_check req;
     match early with
     | Some r => ret r
     | None => respond req gen
     end)
    (fun error => ret (error_response error)).

(** Sequential requests, each with the outcome of its generation call. *)
Fixpoint run_seq (reqs : list (ChatRequest * GenOutcome)) (st : St)
  : St * list (Res HttpResponse) :=
  match reqs with
  | [] => (st, [])
  | (req, gen) :: reqs' =>
      let '(st', r) := post_message req gen st in
      let '(st'', rs) := run_seq reqs' st' in
      (st'', r :: rs)
  end.

End Handler.

(** ** The related-questions route (src/backend/routes/gemini.js, 122-160) *)

Inductive Json :=
| JNull
| JBool (b : bool)
| JNum (n : Z)
| JStr (s : string)
| JArr (l : list Json)
| JObj (l : list (string * Json)).

Record RelatedRequest := mkRelatedRequest {
  rl_lastMessage : option string;
  rl_lastResponse : option string;
  rl_userRole : option string;
  rl_language : option string
}.

(** Every path of the handler ends in [res.json(...)], status 200. *)
Record JsonResponse := mkJsonResponse { status : Z; body : Json }.

Definition substring_type_error : PgError :=
  mkPgError None (Some "Cannot read properties of undefined (reading 'substring')") None.

Section Related.

(** [JSON.parse]: [None] is a raised [SyntaxError]. *)
Variable json_parse : string -> option Json.

Definition json_syntax_error : PgError :=
  mkPgError None (Some "Unexpected token in JSON") None.

(** The [try] block, lines 123-154: the prompt reads
    [lastMessage.substring(0, 200)] and [lastResponse.substring(0, 200)]
    before the generation call, which raises on failure. *)
Definition related_try (req : RelatedRequest) (gen : GenOutcome) : Res Json :=
  match rl_lastMessage req, rl_lastResponse req with
  | Some _, Some _ =>
      match gen with
      | GenOk text _ =>
          match json_parse text with
          | Some j => Ok j
          | None => Throw json_syntax_error
          end
      | GenErr e => Throw e
      end
  | _, _ => Throw substring_type_error
  end.

(** Lines 122-160: the [catch] answers [res.json([])]. *)
Definition post_related (req : RelatedRequest) (gen : GenOutcome) : JsonResponse :=
  match related_try req gen with
  | Ok j => mkJsonResponse 200 j
  | Throw _ => mkJsonResponse 200 (JArr [])
  end.

End Related.

(** ** Vocabulary of the properties *)

Definition persist_events (req : ChatRequest) (uid sid text : string) (fh : list Content)
  : list Event :=
  app [EStore (InsertMessage (mkChatMessage sid uid "user" (rq_message req)));
       EStore (InsertMessage (mkChatMessage sid uid "model" text));
       EStore (TouchSession sid (rq_now req))]
      (if Nat.eqb (length fh) 0 then [EStore (UpdateTitle sid (rq_stamp req))] else []).

(** The storage calls of the persistence step, when it runs. *)
Definition persist_part (req : ChatRequest) (text : string) : list Event :=
  match rq_user req, truthy (rq_sessionId req) with
  | Some u, Some sid => persist_events req (au_id u) sid text (formatHistory (rq_history req))
  | _, _ => []
  end.

(** Calls the access check may make. *)
Definition gate_event (ev : Event) : Prop :=
  match ev with
  | EStore (SelectProfile _) | EStore (SelectUsage _)
  | EStore (InsertUsage _ _) | EStore (UpdateUsage _ _) => True
  | _ => False
  end.

(** Calls that read or write [question_usage]. *)
Definition usage_event (ev : Event) : bool :=
  match ev with
  | EStore (SelectUsage _) | EStore (InsertUsage _ _) | EStore (UpdateUsage _ _) => true
  | _ => false
  end.

Definition is_gen_event (ev : Event) : bool :=
  match ev with EGen _ _ => true | _ => false end.

(** The rows handed to [chat_messages] inserts, in call order. *)
Fixpoint msg_inserts (tr : list Event) : list ChatMessage :=
  match tr with
  | [] => []
  | EStore (InsertMessage m) :: tr' => m :: msg_inserts tr'
  | _ :: tr' => msg_inserts tr'
  end.

(** The calls that create a [chat_sessions] row. *)
Fixpoint session_creations (tr : list Event) : list (string * ChatSession) :=
  match tr with
  | [] => []
  | EStore (InsertSession sid s) :: tr' => (sid, s) :: session_creations tr'
  | _ :: tr' => session_creations tr'
  end.

Definition denied (r : Res HttpResponse) : Prop :=
  r = Ok (Status403 "LIMIT_REACHED" limit_message).

Definition is_denied (r : Res HttpResponse) : bool :=
  match r with Ok (Status403 _ _) => true | _ => false end.

(** A role source that is set (truthy) and names an elevated role. *)
Definition claims_elevated (elevated : string -> bool) (o : option string) : bool :=
  match truthy o with Some r => elevated r | None => false end.

(** ** Concrete fixtures *)

Definition alice : AuthUser := mkAuthUser "u1" None None None.
Definition no_elevated (_ : string) : bool := false.
Definition admin_only (r : string) : bool := String.eqb r "admin".

Definition db_empty : DB := mkDB ∅ ∅ ∅ [].

Definition first_turn : ChatRequest :=
  mkChatRequest (Some alice) "What is the dose of amoxicillin?" [] None None
    (Some "s1") "2026-10-16T10:00:00.000Z" "Oct 16, 10:00 AM".

Definition db_alice : DB := mkDB {[ "u1" := mkProfile None ]} ∅ ∅ [].

Definition db_alice_limit : DB := mkDB {[ "u1" := mkProfile None ]} {[ "u1" := 5%Z ]} ∅ [].

Definition old_session : ChatSession :=
  mkChatSession "u1" "Old" "International" "International" None.

Definition db_alice_session : DB :=
  mkDB {[ "u1" := mkProfile None ]} ∅ {[ "s1" := old_session ]} [].

Definition welcome_turn : ChatRequest :=
  mkChatRequest (Some alice) "What is the dose of amoxicillin?"
    [mkTurn "model" "Welcome to MDnexa. How can I help?"] None None
    (Some "s1") "2026-10-16T10:00:00.000Z" "Oct 16, 10:00 AM".

(** A genuine second turn: welcome, first question, first answer. *)
Definition second_turn : ChatRequest :=
  mkChatRequest (Some alice) "And for children?"
    [mkTurn "model" "Welcome to MDnexa. How can I help?";
     mkTurn "user" "What is the dose of amoxicillin?"; mkTurn "model" "500 mg"] None None
    (Some "s1") "2026-10-16T10:05:00.000Z" "Oct 16, 10:05 AM".

Definition bob : AuthUser := mkAuthUser "u2" None (Some "admin") None.

Definition db_bob : DB := mkDB {[ "u2" := mkProfile None ]} {[ "u2" := 7%Z ]} ∅ [].

Definition bob_turn : ChatRequest :=
  mkChatRequest (Some bob) "Loading dose of amiodarone?" [] None None None
    "2026-10-16T10:00:00.000Z" "Oct 16, 10:00 AM".

Definition json_parse_empty (s : string) : option Json :=
  if String.eqb s "[]" then Some (JArr []) else None.

Definition run1 := post_message db_exec no_elevated first_turn (GenOk "500 mg" "gemini-2.0-flash") (db_alice, []).

(** ** Auxiliary definitions of the proofs *)

Definition gate_verdict (r : option HttpResponse) : Prop :=
  r = None \/ r = Some (Status403 "LIMIT_REACHED" limit_message).

Definition replay_event (d : DB) (ev : Event) : DB :=
  match ev with EStore q => fst (db_exec d q) | EGen _ _ => d end.

Definition replay (d : DB) (l : list Event) : DB := fold_left replay_event l d.

Definition replays {A} (m : M A) : Prop :=
  forall db tr, exists l, fst (m (db, tr)) = (replay db l, app tr l).

Definition usage_count (db : DB) (uid : string) : Z :=
  match question_usage db !! uid with Some c => c | None => 0%Z end.

Fixpoint denial_pattern (k : Z) (n : nat) : list bool :=
  match n with
  | O => []
  | S n' => (5 <=? k)%Z :: denial_pattern (if (5 <=? k)%Z then k else (k + 1)%Z) n'
  end.

Definition nonpriv (elevated : string -> bool) (db : DB) (u : AuthUser) : Prop :=
  hasUnlimitedAccess elevated (allRoles (profiles db !! au_id u) u) = false.

Definition role_sources (profile : option Profile) (u : AuthUser) : list (option string) :=
  [match profile with Some p => pr_role p | None => None end;
   au_role u; au_meta_role u; au_app_role u].

(** ** Effect of a turn on [chat_messages] *)

(** The rows a turn that got past the access check stores, read off the
    persistence step (lines 286-302) against the store above: both message
    rows when the session row exists, none otherwise. *)
Definition turn_rows (req : ChatRequest) (gen : GenOutcome) (db : DB) : list ChatMessage :=
  match gen, rq_user req, truthy (rq_sessionId req) with
  | GenOk t _, Some u, Some sid =>
      match chat_sessions db !! sid with
      | Some _ => [mkChatMessage sid (au_id u) "user" (rq_message req);
                   mkChatMessage sid (au_id u) "model" t]
      | None => []
      end
  | _, _, _ => []
  end.

(** Calls of the access check and the generation call. *)
Definition inert_event (ev : Event) : Prop := gate_event ev \/ is_gen_event ev = true.

(** ** The profile and settings routes (src/unnamed/part_000 lines 8-50,
    src/backend/routes/settings.js lines 8-72)

    These routes read and write the [profiles] table through the same
    client; each call answers [{ data, error }].  A fault oracle says which
    calls answer with an error instead of running. *)

Record ProfileRow := mkProfileRow {
  pf_logo_url : option string;
  pf_preferences : option (gmap string Json);   (* jsonb object or null *)
  pf_accepted_terms_at : option string
}.

Inductive ProfileQuery :=
| PSelect (id : string)                              (* select().eq('id').maybeSingle() *)
| PUpdateTerms (id now : string)                     (* part_000 lines 13-18 *)
| PUpdateLogo (id : string) (logo_url : option string)   (* settings.js lines 13-17 *)
| PUpdatePrefs (id : string) (prefs : gmap string Json). (* settings.js lines 59-63 *)

(** [data] as the list of returned rows; [.maybeSingle()] and [.single()]
    read its first row. *)
Record ProfileResponse := mkProfileResponse {
  p_rows : list ProfileRow;
  p_error : option PgError
}.

Definition set_terms (r : ProfileRow) (now : string) : ProfileRow :=
  mkProfileRow (pf_logo_url r) (pf_preferences r) (Some now).
Definition set_logo (r : ProfileRow) (url : option string) : ProfileRow :=
  mkProfileRow url (pf_preferences r) (pf_accepted_terms_at r).
Definition set_prefs (r : ProfileRow) (p : gmap string Json) : ProfileRow :=
  mkProfileRow (pf_logo_url r) (Some p) (pf_accepted_terms_at r).

(** An update with [.select()] returns the updated rows; [.single()] on no
    row answers PGRST116. *)
Definition profile_exec (fault : ProfileQuery -> option PgError) (t : gmap string ProfileRow)
  (q : ProfileQuery) : gmap string ProfileRow * ProfileResponse :=
  match fault q with
  | Some e => (t, mkProfileResponse [] (Some e))
  | None =>
      match q with
      | PSelect id =>
          (t, mkProfileResponse (match t !! id with Some r => [r] | None => [] end) None)
      | PUpdateTerms id now =>
          match t !! id with
          | Some r => (<[id := set_terms r now]> t, mkProfileResponse [set_terms r now] None)
          | None => (t, mkProfileResponse [] (Some no_rows_error))
          end
      | PUpdateLogo id url =>
          match t !! id with
          | Some r => (<[id := set_logo r url]> t, mkProfileResponse [set_logo r url] None)
          | None => (t, mkProfileResponse [] None)
          end
      | PUpdatePrefs id p =>
          match t !! id with
          | Some r => (<[id := set_prefs r p]> t, mkProfileResponse [set_prefs r p] None)
          | None => (t, mkProfileResponse [] None)
          end
      end
  end.

Definition no_faults (_ : ProfileQuery) : option PgError := None.

Definition read_fails (e : PgError) (q : ProfileQuery) : option PgError :=
  match q with PSelect _ => Some e | _ => None end.

(** [req.user]: id, email and [user_metadata?.full_name]. *)
Record AccountUser := mkAccountUser {
  acc_id : string;
  acc_email : option string;
  acc_meta_full_name : option string
}.

Inductive RouteResponse :=
| RTerms (profile : option ProfileRow)          (* { success: true, profile: data } *)
| RProfile (row : ProfileRow)                   (* res.json(data) *)
| RBasic (id : string) (email : option string) (full_name : string)
| RLogo (profile : option ProfileRow)           (* { success: true, profile: data[0] } *)
| RPrefs (prefs : gmap string Json)             (* res.json(data?.preferences || {}) *)
| RPrefsSaved (prefs : gmap string Json)        (* { success: true, preferences: newPrefs } *)
| R500 (error : option string).                 (* res.status(500).json({ error }) *)

Definition prefs_or_empty (o : option ProfileRow) : gmap string Json :=
  match o ≫= pf_preferences with Some p => p | None => ∅ end.

Section ProfileRoutes.

Variable fault : ProfileQuery -> option PgError.

(** POST /accept-terms, part_000 lines 9-26. *)
Definition post_accept_terms (t : gmap string ProfileRow) (userId now : string)
  : gmap string ProfileRow * RouteResponse :=
  let '(t1, r) := profile_exec fault t (PUpdateTerms userId now) in
  match p_error r with
  | Some e => (t1, R500 (message e))
  | None => (t1, RTerms (head (p_rows r)))
  end.

(** GET /me, part_000 lines 29-50. *)
Definition get_me (t : gmap string ProfileRow) (u : AccountUser) : gmap string ProfileRow * RouteResponse :=
  let '(t1, r) := profile_exec fault t (PSelect (acc_id u)) in
  match p_error r with
  | Some e => (t1, R500 (message e))
  | None =>
      match head (p_rows r) with
      | None => (t1, RBasic (acc_id u) (acc_email u) (or_default (acc_meta_full_name u) EmptyString))
      | Some row => (t1, RProfile row)
      end
  end.

(** POST /logo, settings.js lines 8-25. *)
Definition post_logo (t : gmap string ProfileRow) (userId : string) (logoUrl : option string)
  : gmap string ProfileRow * RouteResponse :=
  let '(t1, r) := profile_exec fault t (PUpdateLogo userId logoUrl) in
  match p_error r with
  | Some e => (t1, R500 (message e))
  | None => (t1, RLogo (head (p_rows r)))
  end.

(** GET /preferences, settings.js lines 28-42. *)
Definition get_preferences (t : gmap string ProfileRow) (userId : string)
  : gmap string ProfileRow * RouteResponse :=
  let '(t1, r) := profile_exec fault t (PSelect userId) in
  match p_error r with
  | Some e => (t1, R500 (message e))
  | None => (t1, RPrefs (prefs_or_empty (head (p_rows r))))
  end.

(** PUT /preferences, settings.js lines 45-72.  The read's error is not
    looked at; [{ ...old, ...updates }] is the union in which [updates]
    wins. *)
Definition put_preferences (t : gmap string ProfileRow) (userId : string) (updates : gmap string Json)
  : gmap string ProfileRow * RouteResponse :=
  let '(t1, r1) := profile_exec fault t (PSelect userId) in
  let newPrefs := updates ∪ prefs_or_empty (head (p_rows r1)) in
  let '(t2, r2) := profile_exec fault t1 (PUpdatePrefs userId newPrefs) in
  match p_error r2 with
  | Some e => (t2, R500 (message e))
  | None => (t2, RPrefsSaved newPrefs)
  end.

End ProfileRoutes.

(** ** POST /speech (src/backend/routes/gemini.js lines 7-37)

    [req.body.text] is a JS string, modelled as its sequence of UTF-16
    code units: [slice] and the truthiness test count those units. *)






(** ** Fixtures of the other routes *)

Definition prefs_en : gmap string Json :=
  {[ "language" := JStr "en"; "region" := JStr "Europe" ]}.

Definition prefs_update : gmap string Json := {[ "language" := JStr "de" ]}.

Definition row_u1 : ProfileRow := mkProfileRow None (Some prefs_en) None.

Definition table_u1 : gmap string ProfileRow := {[ "u1" := row_u1 ]}.

Definition carol : AccountUser := mkAccountUser "u3" (Some "carol@example.org") None.

Definition guest_turn : ChatRequest :=
  mkChatRequest None "What is the dose of amoxicillin?" [] None None
    (Some "s1") "2026-10-16T10:00:00.000Z" "Oct 16, 10:00 AM".

Definition storage_down : PgError := mkPgError None (Some "fetch failed") None.

(** ** Checks on concrete runs *)

Example formatHistory_welcome :
  formatHistory [mkTurn "model" "Welcome"; mkTurn "user" "q"; mkTurn "assistant" "a"]
  = [mkContent "user" ["q"]; mkContent "model" ["a"]].
Proof. reflexivity. Qed.

Example run1_trace :
  snd (fst run1) =
  [EStore (SelectProfile "u1"); EStore (SelectUsage "u1"); EStore (InsertUsage "u1" 1);
   EGen [] "What is the dose of amoxicillin?";
   EStore (InsertMessage (mkChatMessage "s1" "u1" "user" "What is the dose of amoxicillin?"));
   EStore (InsertMessage (mkChatMessage "s1" "u1" "model" "500 mg"));
   EStore (TouchSession "s1" "2026-10-16T10:00:00.000Z");
   EStore (UpdateTitle "s1" "Oct 16, 10:00 AM")].
Proof. vm_compute. reflexivity. Qed.

Example run1_result : snd run1 = Ok (Json200 "500 mg" "gemini-2.0-flash").
Proof. vm_compute. reflexivity. Qed.

Example run1_no_messages : chat_messages (fst (fst run1)) = [].
Proof. vm_compute. reflexivity. Qed.

Example fk_error_recognised : isFkError (session_fk_error "s1") = true.
Proof. vm_compute. reflexivity. Qed.

Example second_turn_keeps_title :
  cs_title <$> chat_sessions (fst (fst (post_message db_exec no_elevated second_turn
     (GenOk "25-45 mg/kg/day" "gemini-2.0-flash") (db_alice_session, [])))) !! "s1"
  = Some "Old".
Proof. vm_compute. reflexivity. Qed.

(** ** Structure of a run *)

Lemma persist_turn_trace exec req uid sid text fh db tr :
  exists db', persist_turn exec req uid sid text fh (db, tr)
              = ((db', app tr (persist_events req uid sid text fh)), Ok tt).
Proof.
  unfold persist_turn, persistMessages, persist_events, try_catch, bind, call, ret.
  destruct (exec db _) as [db1 r1].
  destruct (exec db1 _) as [db2 r2].
  destruct (exec db2 _) as [db3 r3].
  simpl.
  destruct (Nat.eqb (length fh) 0); simpl.
  - destruct (exec db3 _) as [db4 r4]. exists db4. simpl.
    rewrite <- !app_assoc. reflexivity.
  - exists db3. rewrite ?app_nil_r, <- !app_assoc. reflexivity.
Qed.

Lemma usage_gate_shape exec elevated u db tr :
  exists db' l r, usage_gate exec elevated u (db, tr) = ((db', app tr l), Ok r)
    /\ Forall gate_event l /\ gate_verdict r.
Proof.
  unfold usage_gate, bind, call, ret.
  destruct (exec db _) as [db1 r1]. simpl.
  destruct (hasUnlimitedAccess _ _).
  - do 3 eexists. split; [reflexivity|]. split; [repeat constructor | left; reflexivity].
  - destruct (exec db1 _) as [db2 r2]. simpl.
    destruct (5 <=? _)%Z.
    + do 3 eexists. split; [rewrite <- app_assoc; reflexivity|].
      split; [repeat constructor | right; reflexivity].
    + destruct (usage_of r2); simpl; destruct (exec db2 _) as [db3 r3]; simpl;
        do 3 eexists; (split; [rewrite <- !app_assoc; reflexivity|]);
        (split; [repeat constructor | left; reflexivity]).
Qed.

Lemma access_check_shape exec elevated req db tr :
  exists db' l r, access_check exec elevated req (db, tr) = ((db', app tr l), Ok r)
    /\ Forall gate_event l /\ gate_verdict r
    /\ (rq_user req = None -> db' = db /\ l = [] /\ r = None).
Proof.
  unfold access_check. destruct (rq_user req) as [u|] eqn:Hu.
  - destruct (usage_gate_shape exec elevated u db tr) as (db' & l & r & H1 & H2 & H3).
    exists db', l, r. repeat split; auto. discriminate.
    all: intros; discriminate.
  - exists db, [], None. rewrite app_nil_r. repeat split; auto. left; reflexivity.
Qed.

Lemma respond_ok exec req text model db tr :
  exists db', respond exec req (GenOk text model) (db, tr) =
    ((db', app tr (EGen (formatHistory (rq_history req)) (rq_message req)
                   :: persist_part req text)), Ok (Json200 text model)).
Proof.
  unfold respond, generateMessage, persist_part, bind, emit, ret. simpl.
  destruct (rq_user req) as [u|]; [destruct (truthy (rq_sessionId req)) as [sid|]|].
  - destruct (persist_turn_trace exec req (au_id u) sid text
                (formatHistory (rq_history req)) db
                (app tr [EGen (formatHistory (rq_history req)) (rq_message req)]))
      as [db' Hp].
    rewrite Hp. exists db'. rewrite <- app_assoc. reflexivity.
  - exists db. reflexivity.
  - exists db. reflexivity.
Qed.

Lemma respond_err exec req e db tr :
  respond exec req (GenErr e) (db, tr) =
    ((db, app tr [EGen (formatHistory (rq_history req)) (rq_message req)]), Throw e).
Proof. reflexivity. Qed.

Lemma post_message_eq exec elevated req gen st :
  post_message exec elevated req gen st =
  match access_check exec elevated req st with
  | (st1, Ok (Some r)) => (st1, Ok r)
  | (st1, Ok None) =>
      match respond exec req gen st1 with
      | (st2, Ok r) => (st2, Ok r)
      | (st2, Throw e) => (st2, Ok (error_response e))
      end
  | (st1, Throw e) => (st1, Ok (error_response e))
  end.
Proof.
  unfold post_message, try_catch, bind.
  destruct (access_check exec elevated req st) as [st1 [[r|]|e]]; try reflexivity.
Qed.

Lemma post_message_shape exec elevated req gen db tr :
  exists db1 l,
    Forall gate_event l /\
    (rq_user req = None -> db1 = db /\ l = []) /\
    ( post_message exec elevated req gen (db, tr)
        = ((db1, app tr l), Ok (Status403 "LIMIT_REACHED" limit_message))
    \/ (access_check exec elevated req (db, tr) = ((db1, app tr l), Ok None) /\
        exists db2, post_message exec elevated req gen (db, tr) =
          ((db2, app tr (app l (EGen (formatHistory (rq_history req)) (rq_message req)
                           :: match gen with GenOk t _ => persist_part req t | GenErr _ => [] end))),
           Ok (match gen with GenOk t m => Json200 t m | GenErr e => error_response e end)))).
Proof.
  destruct (access_check_shape exec elevated req db tr)
    as (db1 & l & r & Ha & Hl & Hv & Hg).
  exists db1, l. split; [exact Hl|]. split; [intros Hn; destruct (Hg Hn) as (? & ? & _); auto|].
  rewrite post_message_eq, Ha.
  destruct Hv as [-> | ->].
  - right. split; [reflexivity|]. destruct gen as [t m | e].
    + destruct (respond_ok exec req t m db1 (app tr l)) as [db2 Hr].
      rewrite Hr. exists db2. rewrite <- app_assoc. reflexivity.
    + rewrite respond_err. exists db1. rewrite <- app_assoc. reflexivity.
  - left. reflexivity.
Qed.

Lemma replay_app d l1 l2 : replay d (app l1 l2) = replay (replay d l1) l2.
Proof. unfold replay. apply fold_left_app. Qed.

Lemma replays_ret {A} (a : A) : replays (ret a).
Proof. intros db tr. exists []. rewrite app_nil_r. reflexivity. Qed.

Lemma replays_throw {A} e : replays (A:=A) (throw e).
Proof. intros db tr. exists []. rewrite app_nil_r. reflexivity. Qed.

Lemma replays_emit h m : replays (emit (EGen h m)).
Proof. intros db tr. exists [EGen h m]. reflexivity. Qed.

Lemma replays_call q : replays (call db_exec q).
Proof.
  intros db tr. exists [EStore q]. unfold call.
  destruct (db_exec db q) as [d r] eqn:E. simpl. rewrite E. reflexivity.
Qed.

Lemma replays_bind {A B} (m : M A) (k : A -> M B) :
  replays m -> (forall a, replays (k a)) -> replays (bind m k).
Proof.
  intros Hm Hk db tr. destruct (Hm db tr) as [l1 H1]. unfold bind.
  destruct (m (db, tr)) as [st1 [a|e]]; simpl in H1; subst st1.
  - destruct (Hk a (replay db l1) (app tr l1)) as [l2 H2].
    exists (app l1 l2). rewrite H2, replay_app, app_assoc. reflexivity.
  - exists l1. reflexivity.
Qed.

Lemma replays_try_catch {A} (m : M A) h :
  replays m -> (forall e, replays (h e)) -> replays (try_catch m h).
Proof.
  intros Hm Hh db tr. destruct (Hm db tr) as [l1 H1]. unfold try_catch.
  destruct (m (db, tr)) as [st1 [a|e]]; simpl in H1; subst st1.
  - exists l1. reflexivity.
  - destruct (Hh e (replay db l1) (app tr l1)) as [l2 H2].
    exists (app l1 l2). rewrite H2, replay_app, app_assoc. reflexivity.
Qed.

Ltac replays_tac :=
  repeat first
    [ apply replays_ret | apply replays_throw | apply replays_emit | apply replays_call
    | apply replays_bind; intros | apply replays_try_catch; intros
    | match goal with
      | |- replays (if ?b then _ else _) => destruct b
      | |- replays (match ?x with _ => _ end) => destruct x
      | |- replays (let '(_, _) := ?x in _) => destruct x
      end
    | progress cbv zeta ].

Lemma persist_turn_replays req uid sid text fh :
  replays (persist_turn db_exec req uid sid text fh).
Proof. unfold persist_turn, persistMessages. cbv zeta. replays_tac. Qed.

Lemma usage_gate_replays elevated u : replays (usage_gate db_exec elevated u).
Proof. unfold usage_gate. cbv zeta. replays_tac. Qed.

Lemma respond_replays req gen : replays (respond db_exec req gen).
Proof.
  unfold respond, generateMessage. cbv zeta. replays_tac.
Qed.

Lemma post_message_replays elevated req gen : replays (post_message db_exec elevated req gen).
Proof.
  unfold post_message, access_check, usage_gate, respond, generateMessage,
    persist_turn, persistMessages.
  replays_tac.
Qed.

Lemma replays_eq {A} (m : M A) db tr db' l r :
  replays m -> m (db, tr) = ((db', app tr l), r) -> db' = replay db l.
Proof.
  intros Hm E. destruct (Hm db tr) as [l' H]. rewrite E in H. simpl in H.
  injection H as H1 H2. apply app_inv_head in H2. subst. reflexivity.
Qed.

Lemma respond_db req gen db tr :
  let evs := EGen (formatHistory (rq_history req)) (rq_message req)
             :: match gen with GenOk t _ => persist_part req t | GenErr _ => [] end in
  respond db_exec req gen (db, tr) =
    ((replay db evs, app tr evs),
     match gen with GenOk t m => Ok (Json200 t m) | GenErr e => Throw e end).
Proof.
  intros evs. destruct gen as [t m | e].
  - destruct (respond_ok db_exec req t m db tr) as [db' H].
    pose proof (replays_eq _ _ _ _ _ _ (respond_replays req (GenOk t m)) H) as Hd.
    rewrite H, Hd. reflexivity.
  - rewrite respond_err. reflexivity.
Qed.

Lemma usage_gate_db elevated u db tr :
  let uid := au_id u in
  usage_gate db_exec elevated u (db, tr) =
  if hasUnlimitedAccess elevated (allRoles (profiles db !! uid) u)
  then ((db, app tr [EStore (SelectProfile uid)]), Ok None)
  else match question_usage db !! uid with
       | None => ((set_usage db (<[uid := 1%Z]> (question_usage db)),
                   app tr [EStore (SelectProfile uid); EStore (SelectUsage uid);
                           EStore (InsertUsage uid 1)]), Ok None)
       | Some c =>
           if (5 <=? c)%Z
           then ((db, app tr [EStore (SelectProfile uid); EStore (SelectUsage uid)]),
                 Ok (Some (Status403 "LIMIT_REACHED" limit_message)))
           else ((set_usage db (<[uid := (c + 1)%Z]> (question_usage db)),
                  app tr [EStore (SelectProfile uid); EStore (SelectUsage uid);
                          EStore (UpdateUsage uid (c + 1))]), Ok None)
       end.
Proof.
  cbv zeta. set (uid := au_id u). unfold usage_gate, bind, call, ret. fold uid.
  assert (Hp : db_exec db (SelectProfile uid)
               = (db, match profiles db !! uid with
                      | Some p => ok_resp (Some (DProfile p))
                      | None => err_resp no_rows_error end))
    by (simpl; destruct (_ !! uid); reflexivity).
  rewrite Hp. clear Hp.
  replace (profile_of _) with (profiles db !! uid)
    by (destruct (profiles db !! uid); reflexivity).
  destruct (hasUnlimitedAccess elevated _); [reflexivity|].
  assert (Hu : db_exec db (SelectUsage uid)
               = (db, match question_usage db !! uid with
                      | Some c => ok_resp (Some (DUsage c))
                      | None => err_resp no_rows_error end))
    by (simpl; destruct (_ !! uid); reflexivity).
  rewrite Hu. clear Hu.
  destruct (question_usage db !! uid) as [c|] eqn:Eu; simpl.
  - destruct (5 <=? c)%Z; simpl; [rewrite <- app_assoc; reflexivity|].
    rewrite Eu. simpl. rewrite <- !app_assoc. reflexivity.
  - rewrite Eu. simpl. rewrite <- !app_assoc. reflexivity.
Qed.

(** Queries that leave [question_usage] and [profiles] alone. *)
Lemma db_exec_frame db q :
  usage_event (EStore q) = false ->
  question_usage (fst (db_exec db q)) = question_usage db /\
  profiles (fst (db_exec db q)) = profiles db.
Proof.
  destruct q; simpl; try discriminate; intros _.
  - destruct (profiles db !! _); auto.
  - destruct (chat_sessions db !! _); auto.
  - destruct (chat_sessions db !! _); auto.
  - destruct (chat_sessions db !! _); auto.
  - destruct (chat_sessions db !! _); auto.
Qed.

Lemma replay_frame db l :
  Forall (fun ev => usage_event ev = false) l ->
  question_usage (replay db l) = question_usage db /\ profiles (replay db l) = profiles db.
Proof.
  revert db. induction l as [|ev l IH]; intros db Hl; [auto|].
  inversion Hl as [|? ? Hev Hl']; subst. unfold replay. simpl. fold (replay (replay_event db ev) l).
  destruct (IH (replay_event db ev) Hl') as [-> ->].
  destruct ev as [q|]; simpl; [apply db_exec_frame; exact Hev | auto].
Qed.

Lemma respond_events_usage_free req gen :
  Forall (fun ev => usage_event ev = false)
    (EGen (formatHistory (rq_history req)) (rq_message req)
     :: match gen with GenOk t _ => persist_part req t | GenErr _ => [] end).
Proof.
  constructor; [reflexivity|]. destruct gen as [t m|e]; [|constructor].
  unfold persist_part, persist_events.
  destruct (rq_user req), (truthy (rq_sessionId req)); simpl; repeat constructor.
  destruct (Nat.eqb _ 0); simpl; repeat constructor.
Qed.

Lemma post_message_after_gate elevated req gen db tr db1 l :
  access_check db_exec elevated req (db, tr) = ((db1, app tr l), Ok None) ->
  let evs := EGen (formatHistory (rq_history req)) (rq_message req)
             :: match gen with GenOk t _ => persist_part req t | GenErr _ => [] end in
  post_message db_exec elevated req gen (db, tr) =
    ((replay db1 evs, app tr (app l evs)),
     Ok (match gen with GenOk t m => Json200 t m | GenErr e => error_response e end)).
Proof.
  intros H evs. rewrite post_message_eq, H, respond_db.
  rewrite <- app_assoc. destruct gen; reflexivity.
Qed.

Lemma post_message_nonpriv elevated req gen u db tr :
  rq_user req = Some u -> nonpriv elevated db u ->
  let uid := au_id u in
  let k := usage_count db uid in
  let '((db', tr'), r) := post_message db_exec elevated req gen (db, tr) in
  profiles db' = profiles db /\
  is_denied r = (5 <=? k)%Z /\
  usage_count db' uid = (if (5 <=? k)%Z then k else (k + 1)%Z) /\
  (if (5 <=? k)%Z then question_usage db' = question_usage db /\ denied r
   else question_usage db' = <[uid := (k + 1)%Z]> (question_usage db) /\
        r = Ok (match gen with GenOk t m => Json200 t m | GenErr e => error_response e end) /\
        tr' = app tr ([EStore (SelectProfile uid); EStore (SelectUsage uid);
                       EStore (match question_usage db !! uid with
                               | None => InsertUsage uid 1
                               | Some c => UpdateUsage uid (c + 1) end);
                       EGen (formatHistory (rq_history req)) (rq_message req)]
                      ++ match gen with GenOk t _ => persist_part req t | GenErr _ => [] end)).
Proof.
  intros Hu Hp uid k.
  assert (Hg := usage_gate_db elevated u db tr). cbv zeta in Hg.
  unfold nonpriv in Hp. rewrite Hp in Hg. fold uid in Hg.
  unfold k, usage_count. clear k.
  destruct (question_usage db !! uid) as [c|] eqn:Ec.
  - destruct (5 <=? c)%Z eqn:E5.
    + rewrite post_message_eq. unfold access_check. rewrite Hu, Hg.
      split; [reflexivity|]. split; [reflexivity|]. rewrite Ec.
      split; [reflexivity|]. split; reflexivity.
    + assert (Ha : access_check db_exec elevated req (db, tr) =
                   ((set_usage db (<[uid := (c + 1)%Z]> (question_usage db)),
                     app tr [EStore (SelectProfile uid); EStore (SelectUsage uid);
                             EStore (UpdateUsage uid (c + 1))]), Ok None))
        by (unfold access_check; rewrite Hu; exact Hg).
      rewrite (post_message_after_gate _ _ gen _ _ _ _ Ha).
      destruct (replay_frame (set_usage db (<[uid := (c + 1)%Z]> (question_usage db)))
                  _ (respond_events_usage_free req gen)) as [Hq Hpr].
      rewrite Hq, Hpr. simpl. rewrite lookup_insert_eq.
      split; [reflexivity|]. split; [destruct gen; reflexivity|].
      split; [reflexivity|]. split; [reflexivity|]. split; [reflexivity|].
      reflexivity.
  - assert (Ha : access_check db_exec elevated req (db, tr) =
                 ((set_usage db (<[uid := 1%Z]> (question_usage db)),
                   app tr [EStore (SelectProfile uid); EStore (SelectUsage uid);
                           EStore (InsertUsage uid 1)]), Ok None))
      by (unfold access_check; rewrite Hu; exact Hg).
    rewrite (post_message_after_gate _ _ gen _ _ _ _ Ha).
    destruct (replay_frame (set_usage db (<[uid := 1%Z]> (question_usage db)))
                _ (respond_events_usage_free req gen)) as [Hq Hpr].
    rewrite Hq, Hpr. simpl. rewrite lookup_insert_eq.
    split; [reflexivity|]. split; [destruct gen; reflexivity|].
    split; [reflexivity|]. split; [reflexivity|]. split; [reflexivity|].
    reflexivity.
Qed.

(** C3. A non-privileged logged-in caller whose stored usage count is at
    least 5 gets [403 LIMIT_REACHED]: the database is left as it was (the
    counter is not written) and the only calls made are the profile and
    usage reads, so no generation call happens. *)
Theorem usage_limit_denies elevated req gen u c db tr :
  rq_user req = Some u ->
  hasUnlimitedAccess elevated (allRoles (profiles db !! au_id u) u) = false ->
  question_usage db !! au_id u = Some c -> (5 <= c)%Z ->
  post_message db_exec elevated req gen (db, tr) =
    ((db, app tr [EStore (SelectProfile (au_id u)); EStore (SelectUsage (au_id u))]),
     Ok (Status403 "LIMIT_REACHED" limit_message)).
Proof.
  intros Hu Hp Hc H5.
  rewrite post_message_eq. unfold access_check. rewrite Hu, usage_gate_db.
  rewrite Hp, Hc. replace (5 <=? c)%Z with true by (symmetry; apply Z.leb_le; exact H5).
  reflexivity.
Qed.

Lemma run_seq_nonpriv elevated u reqs db tr :
  nonpriv elevated db u ->
  Forall (fun x => rq_user (fst x) = Some u) reqs ->
  map is_denied (snd (run_seq db_exec elevated reqs (db, tr)))
  = denial_pattern (usage_count db (au_id u)) (length reqs).
Proof.
  revert db tr. induction reqs as [|[req gen] reqs IH]; intros db tr Hp Hall; [reflexivity|].
  inversion Hall as [|? ? Hu Hall']; subst. simpl in Hu.
  pose proof (post_message_nonpriv elevated req gen u db tr Hu Hp) as H. cbv zeta in H.
  simpl. destruct (post_message db_exec elevated req gen (db, tr)) as [[db' tr'] r].
  destruct H as (Hpr & Hd & Hc & _).
  destruct (run_seq db_exec elevated reqs (db', tr')) as [st'' rs] eqn:Er. simpl.
  rewrite Hd. f_equal. rewrite <- Hc.
  replace rs with (snd (run_seq db_exec elevated reqs (db', tr'))) by (rewrite Er; reflexivity).
  apply IH; [unfold nonpriv in *; rewrite Hpr; exact Hp | exact Hall'].
Qed.

(** C4. For a non-privileged caller below the threshold the gate writes and
    lets the request through: with no usage row it inserts count 1, with a
    row of count [c < 5] it updates to [c + 1]; and six sequential requests
    from a caller without a row are allowed five times, then denied. *)
Theorem usage_increment_allows elevated u db :
  hasUnlimitedAccess elevated (allRoles (profiles db !! au_id u) u) = false ->
  (question_usage db !! au_id u = None ->
   forall req gen tr, rq_user req = Some u ->
   let '((db', tr'), r) := post_message db_exec elevated req gen (db, tr) in
   question_usage db' !! au_id u = Some 1%Z /\
   In (EStore (InsertUsage (au_id u) 1)) tr' /\ ~ denied r) /\
  (forall c, question_usage db !! au_id u = Some c -> (c < 5)%Z ->
   forall req gen tr, rq_user req = Some u ->
   let '((db', tr'), r) := post_message db_exec elevated req gen (db, tr) in
   question_usage db' !! au_id u = Some (c + 1)%Z /\
   In (EStore (UpdateUsage (au_id u) (c + 1))) tr' /\ ~ denied r) /\
  (question_usage db !! au_id u = None ->
   forall reqs tr, length reqs = 6%nat -> Forall (fun x => rq_user (fst x) = Some u) reqs ->
   map is_denied (snd (run_seq db_exec elevated reqs (db, tr)))
   = [false; false; false; false; false; true]).
Proof.
  intros Hp. split; [|split].
  - intros Hn req gen tr Hu.
    pose proof (post_message_nonpriv elevated req gen u db tr Hu Hp) as H. cbv zeta in H.
    unfold usage_count in H. rewrite Hn in H. simpl in H.
    destruct (post_message db_exec elevated req gen (db, tr)) as [[db' tr'] r].
    destruct H as (_ & Hd & _ & Hq & Hr & Ht).
    rewrite Hq, lookup_insert_eq. split; [reflexivity|]. split.
    + rewrite Ht. apply in_or_app. right. simpl. auto.
    + unfold denied. rewrite Hr. destruct gen; discriminate.
  - intros c Hc Hlt req gen tr Hu.
    pose proof (post_message_nonpriv elevated req gen u db tr Hu Hp) as H. cbv zeta in H.
    unfold usage_count in H. rewrite Hc in H.
    replace (5 <=? c)%Z with false in H by (symmetry; apply Z.leb_gt; exact Hlt).
    destruct (post_message db_exec elevated req gen (db, tr)) as [[db' tr'] r].
    destruct H as (_ & Hd & _ & Hq & Hr & Ht).
    rewrite Hq, lookup_insert_eq. split; [reflexivity|]. split.
    + rewrite Ht. apply in_or_app. right. simpl. auto.
    + unfold denied. rewrite Hr. destruct gen; discriminate.
  - intros Hn reqs tr Hlen Hall.
    rewrite (run_seq_nonpriv elevated u reqs db tr Hp Hall), Hlen.
    unfold usage_count. rewrite Hn. reflexivity.
Qed.

(** C9. For a non-privileged caller below the threshold whose generation
    call fails, the usage write is issued before the generation call and is
    kept: the answer is the 500 error and the stored count is one higher. *)
Theorem failed_generation_keeps_increment elevated req e u db tr :
  rq_user req = Some u ->
  hasUnlimitedAccess elevated (allRoles (profiles db !! au_id u) u) = false ->
  (usage_count db (au_id u) < 5)%Z ->
  let uid := au_id u in
  let '((db', tr'), r) := post_message db_exec elevated req (GenErr e) (db, tr) in
  r = Ok (error_response e) /\
  question_usage db' !! uid = Some (usage_count db uid + 1)%Z /\
  tr' = app tr [EStore (SelectProfile uid); EStore (SelectUsage uid);
                EStore (match question_usage db !! uid with
                        | None => InsertUsage uid 1
                        | Some c => UpdateUsage uid (c + 1) end);
                EGen (formatHistory (rq_history req)) (rq_message req)].
Proof.
  intros Hu Hp Hlt uid.
  pose proof (post_message_nonpriv elevated req (GenErr e) u db tr Hu Hp) as H. cbv zeta in H.
  fold uid in H.
  replace (5 <=? usage_count db uid)%Z with false in H by (symmetry; apply Z.leb_gt; exact Hlt).
  destruct (post_message db_exec elevated req (GenErr e) (db, tr)) as [[db' tr'] r].
  destruct H as (_ & _ & _ & Hq & Hr & Ht).
  rewrite Hq, lookup_insert_eq. rewrite app_nil_r in Ht. auto.
Qed.

Lemma hasUnlimitedAccess_sources elevated profile u :
  hasUnlimitedAccess elevated (allRoles profile u)
  = existsb (claims_elevated elevated) (role_sources profile u).
Proof.
  unfold hasUnlimitedAccess, allRoles, role_sources, claims_elevated, truthy.
  destruct (match profile with Some p => pr_role p | None => None end) as [a|];
  destruct (au_role u) as [b|]; destruct (au_meta_role u) as [c|];
  destruct (au_app_role u) as [d|]; simpl;
  repeat match goal with |- context [String.eqb ?s EmptyString] => destruct (String.eqb s EmptyString) end;
  simpl; rewrite ?orb_false_r; reflexivity.
Qed.

Lemma post_message_priv elevated req gen u db tr :
  rq_user req = Some u ->
  hasUnlimitedAccess elevated (allRoles (profiles db !! au_id u) u) = true ->
  let '((db', tr'), r) := post_message db_exec elevated req gen (db, tr) in
  question_usage db' = question_usage db /\ profiles db' = profiles db /\
  ~ denied r /\ exists l, tr' = app tr l /\ Forall (fun ev => usage_event ev = false) l.
Proof.
  intros Hu Hp.
  assert (Ha : access_check db_exec elevated req (db, tr) =
               ((db, app tr [EStore (SelectProfile (au_id u))]), Ok None)).
  { unfold access_check. rewrite Hu, usage_gate_db. cbv zeta. rewrite Hp. reflexivity. }
  rewrite (post_message_after_gate _ _ gen _ _ _ _ Ha).
  destruct (replay_frame db _ (respond_events_usage_free req gen)) as [Hq Hpr].
  split; [exact Hq|]. split; [exact Hpr|]. split.
  - unfold denied. destruct gen; discriminate.
  - eexists. split; [reflexivity|]. constructor; [reflexivity|].
    apply respond_events_usage_free.
Qed.

(** C5. When any one of the four role sources (profile role, auth-user
    role, user-metadata role, app-metadata role) names an elevated role,
    any number of sequential requests from that caller are never denied,
    never read or write [question_usage], and leave its contents as they were. *)
Theorem privileged_usage_untouched elevated u db :
  existsb (claims_elevated elevated) (role_sources (profiles db !! au_id u) u) = true ->
  forall reqs tr, Forall (fun x => rq_user (fst x) = Some u) reqs ->
  let '((db', tr'), rs) := run_seq db_exec elevated reqs (db, tr) in
  question_usage db' = question_usage db /\
  Forall (fun r => ~ denied r) rs /\
  exists l, tr' = app tr l /\ Forall (fun ev => usage_event ev = false) l.
Proof.
  intros Hs reqs. rewrite <- hasUnlimitedAccess_sources in Hs.
  revert db Hs. induction reqs as [|[req gen] reqs IH]; intros db Hs tr Hall.
  - simpl. split; [reflexivity|]. split; [constructor|]. exists []. rewrite app_nil_r. auto.
  - inversion Hall as [|? ? Hu Hall']; subst. simpl in Hu. simpl.
    pose proof (post_message_priv elevated req gen u db tr Hu Hs) as H.
    destruct (post_message db_exec elevated req gen (db, tr)) as [[db1 tr1] r].
    destruct H as (Hq & Hpr & Hnd & l1 & Ht1 & Hl1).
    rewrite <- Hpr in Hs.
    specialize (IH db1 Hs tr1 Hall').
    destruct (run_seq db_exec elevated reqs (db1, tr1)) as [[db2 tr2] rs].
    destruct IH as (Hq2 & Hrs & l2 & Ht2 & Hl2).
    split; [congruence|]. split; [constructor; auto|].
    exists (app l1 l2). split; [rewrite Ht2, Ht1, <- app_assoc; reflexivity | apply Forall_app; auto].
Qed.

(** C6. The history handed to generation is the incoming history with its
    leading non-user turns removed, the rest kept in order (each turn
    reformatted); it is empty or starts with a user turn. *)
Theorem formatHistory_starts_on_user (history : list Turn) :
  exists k,
    formatHistory history = map format_turn (skipn k history) /\
    Forall (fun t => t_role t <> "user") (firstn k history) /\
    match formatHistory history with
    | [] => skipn k history = []
    | c :: _ => c_role c = "user"
    end.
Proof.
  unfold formatHistory. induction history as [|t h IH].
  - exists 0%nat. simpl. auto.
  - simpl. destruct (String.eqb (t_role t) "user") eqn:Er.
    + exists 0%nat. simpl. rewrite Er. simpl. auto.
    + simpl. destruct IH as (k & H1 & H2 & H3). exists (S k). simpl.
      split; [exact H1|]. split; [|exact H3].
      constructor; [|exact H2]. intros He. rewrite He in Er. discriminate.
Qed.

Lemma msg_inserts_app l1 l2 : msg_inserts (app l1 l2) = app (msg_inserts l1) (msg_inserts l2).
Proof. induction l1 as [|[q|] l1 IH]; [|destruct q|]; simpl; rewrite ?IH; reflexivity. Qed.

Lemma session_creations_app l1 l2 :
  session_creations (app l1 l2) = app (session_creations l1) (session_creations l2).
Proof. induction l1 as [|[q|] l1 IH]; [|destruct q|]; simpl; rewrite ?IH; reflexivity. Qed.

Lemma gate_events_inert l :
  Forall gate_event l ->
  msg_inserts l = [] /\ session_creations l = [] /\ existsb is_gen_event l = false /\
  (forall sid t, ~ In (EStore (UpdateTitle sid t)) l).
Proof.
  induction 1 as [|ev l Hev _ IH]; [simpl; intuition|].
  destruct IH as (H1 & H2 & H3 & H4).
  destruct ev as [q|]; [destruct q|]; simpl in Hev; try contradiction;
    simpl; rewrite ?H1, ?H2, ?H3;
    (split; [reflexivity|]); (split; [reflexivity|]); (split; [reflexivity|]);
    (intros sid t [He|He]; [discriminate| exact (H4 sid t He)]).
Qed.

Lemma gate_events_sessions db l :
  Forall gate_event l -> chat_sessions (replay db l) = chat_sessions db.
Proof.
  revert db. induction l as [|ev l IH]; intros db Hl; [reflexivity|].
  inversion Hl as [|? ? Hev Hl']; subst. unfold replay. simpl.
  fold (replay (replay_event db ev) l). rewrite (IH _ Hl').
  destruct ev as [q|]; [destruct q|]; simpl in Hev; try contradiction; simpl;
    repeat match goal with |- context [match ?x with _ => _ end] => destruct x end;
    reflexivity.
Qed.

Lemma access_check_replays elevated req : replays (access_check db_exec elevated req).
Proof. unfold access_check, usage_gate. replays_tac. Qed.

Lemma persist_events_sessions db req uid sid text fh s :
  chat_sessions db !! sid = Some s ->
  chat_sessions (replay db (EGen fh (rq_message req) :: persist_events req uid sid text fh)) !! sid
  = Some (mkChatSession (cs_user_id s)
            (if Nat.eqb (length fh) 0 then rq_stamp req else cs_title s)
            (cs_region s) (cs_country s) (Some (rq_now req))).
Proof.
  intros Hs. unfold replay, persist_events. simpl. rewrite Hs. simpl. rewrite Hs. simpl.
  rewrite Hs. simpl.
  destruct (Nat.eqb (length fh) 0); simpl; unfold set_sessions, set_messages; simpl;
    rewrite ?lookup_insert_eq; simpl; rewrite ?lookup_insert_eq; reflexivity.
Qed.

(** C7 (amended). For a logged-in turn with a session id whose session row
    exists and whose generation succeeds, the title update with the
    formatted timestamp is issued exactly when the trimmed history (the
    incoming history without its leading non-user turns) is empty, and the
    session's title ends as that timestamp in that case and unchanged
    otherwise. *)
Theorem first_turn_title elevated req text model u sid s db :
  rq_user req = Some u -> truthy (rq_sessionId req) = Some sid ->
  chat_sessions db !! sid = Some s ->
  let '((db', tr'), r) := post_message db_exec elevated req (GenOk text model) (db, []) in
  r = Ok (Json200 text model) ->
  (In (EStore (UpdateTitle sid (rq_stamp req))) tr' <-> formatHistory (rq_history req) = []) /\
  cs_title <$> chat_sessions db' !! sid
  = Some (match formatHistory (rq_history req) with [] => rq_stamp req | _ => cs_title s end).
Proof.
  intros Hu Hsid Hs.
  destruct (access_check_shape db_exec elevated req db []) as (db1 & l & r0 & Ha & Hl & Hv & _).
  destruct Hv as [-> | ->].
  - rewrite (post_message_after_gate _ _ _ _ _ _ _ Ha). intros _.
    assert (Hdb1 : chat_sessions db1 = chat_sessions db).
    { rewrite (replays_eq _ _ _ _ _ _ (access_check_replays elevated req) Ha).
      apply gate_events_sessions; exact Hl. }
    unfold persist_part. rewrite Hu, Hsid.
    rewrite <- Hdb1 in Hs.
    rewrite (persist_events_sessions _ _ _ _ _ _ _ Hs). simpl.
    destruct (gate_events_inert l Hl) as (_ & _ & _ & Hnt).
    destruct (formatHistory (rq_history req)) as [|c fh] eqn:Efh; simpl.
    + split; [|reflexivity]. split; [|intros _]; [auto|].
      apply in_or_app. right. simpl. tauto.
    + split; [|reflexivity]. split; [|discriminate].
      intros Hin. apply in_app_or in Hin. destruct Hin as [Hin|Hin].
      * exfalso. exact (Hnt _ _ Hin).
      * simpl in Hin. unfold persist_events in Hin. simpl in Hin.
        repeat (destruct Hin as [Hin|Hin]; [discriminate|]). exact (False_ind _ Hin).
  - rewrite post_message_eq, Ha. discriminate.
Qed.

(** C2. For every storage behaviour, once the generation call has been made
    and has returned an answer, the response is that answer: no outcome of
    the persistence writes, including the title update, changes it. *)
Theorem generated_answer_returned exec elevated req text model db :
  let '((_, tr), r) := post_message exec elevated req (GenOk text model) (db, []) in
  existsb is_gen_event tr = true -> r = Ok (Json200 text model).
Proof.
  destruct (post_message_shape exec elevated req (GenOk text model) db [])
    as (db1 & l & Hl & _ & [H | [_ (db2 & H)]]); rewrite H.
  - destruct (gate_events_inert l Hl) as (_ & _ & Hg & _). simpl. rewrite Hg. discriminate.
  - intros _. reflexivity.
Qed.

(** C8. For every storage behaviour, the [chat_messages] inserts of a
    request are either none or exactly the user-message row followed by the
    model-message row of the same session and user. *)
Theorem user_message_before_model exec elevated req gen db :
  let '((_, tr), _) := post_message exec elevated req gen (db, []) in
  msg_inserts tr = [] \/
  exists sid uid text,
    msg_inserts tr = [mkChatMessage sid uid "user" (rq_message req);
                      mkChatMessage sid uid "model" text].
Proof.
  destruct (post_message_shape exec elevated req gen db [])
    as (db1 & l & Hl & _ & [H | [_ (db2 & H)]]); rewrite H;
    destruct (gate_events_inert l Hl) as (Hm & _ & _ & _); simpl.
  - left. exact Hm.
  - rewrite msg_inserts_app, Hm. simpl.
    destruct gen as [t m|e]; [|left; reflexivity].
    unfold persist_part. destruct (rq_user req) as [u|]; [|left; reflexivity].
    destruct (truthy (rq_sessionId req)) as [sid|]; [|left; reflexivity].
    right. exists sid, (au_id u), t. unfold persist_events. simpl.
    destruct (Nat.eqb _ 0); reflexivity.
Qed.

Lemma persistence_never_creates_session exec elevated req gen db :
  session_creations (snd (fst (post_message exec elevated req gen (db, [])))) = [].
Proof.
  destruct (post_message_shape exec elevated req gen db [])
    as (db1 & l & Hl & _ & [H | [_ (db2 & H)]]); rewrite H;
    destruct (gate_events_inert l Hl) as (_ & Hs & _ & _); simpl; [exact Hs|].
  rewrite session_creations_app, Hs. simpl.
  destruct gen as [t m|e]; [|reflexivity].
  unfold persist_part. destruct (rq_user req); [|reflexivity].
  destruct (truthy (rq_sessionId req)); [|reflexivity].
  unfold persist_events. simpl. destruct (Nat.eqb _ 0); reflexivity.
Qed.

(** C1 (code defect). Persisting a turn against a session id that has no
    [chat_sessions] row: the message insert answers with the foreign-key
    error naming [chat_sessions], which the recovery test would accept, but
    the error is returned in the response object and never raised, so no
    session is created, the turn is not retried and no message is stored. *)
Theorem missing_session_not_recovered :
  let '((db', tr), r) := run1 in
  chat_sessions db_alice !! "s1" = None /\
  error (snd (db_exec db_alice
                (InsertMessage (mkChatMessage "s1" "u1" "user" (rq_message first_turn)))))
    = Some (session_fk_error "s1") /\
  isFkError (session_fk_error "s1") = true /\
  session_creations tr = [] /\
  msg_inserts tr = [mkChatMessage "s1" "u1" "user" (rq_message first_turn);
                    mkChatMessage "s1" "u1" "model" "500 mg"] /\
  chat_messages db' = [] /\
  r = Ok (Json200 "500 mg" "gemini-2.0-flash").
Proof. vm_compute. repeat split; reflexivity. Qed.

(** C7 counterexample. A turn whose incoming history is non-empty (only a
    welcome message from the model) still has its existing title "Old"
    replaced by the timestamp. *)
Lemma later_turn_title_overwritten :
  let '((db', _), r) := post_message db_exec no_elevated welcome_turn
                          (GenOk "500 mg" "gemini-2.0-flash") (db_alice_session, []) in
  rq_history welcome_turn <> [] /\
  r = Ok (Json200 "500 mg" "gemini-2.0-flash") /\
  cs_title <$> chat_sessions db_alice_session !! "s1" = Some "Old" /\
  cs_title <$> chat_sessions db' !! "s1" = Some "Oct 16, 10:00 AM".
Proof. vm_compute. split; [discriminate|]. repeat split; reflexivity. Qed.

(** C10. The related-questions route answers status 200 with an empty
    array when generation fails, when the generated text does not parse, or
    when the request lacks the fields the prompt reads; a successful
    generation of "[]" gives the same response. *)
Theorem related_failure_is_empty_array json_parse :
  json_parse "[]" = Some (JArr []) ->
  forall req,
    (forall e, post_related json_parse req (GenErr e) = mkJsonResponse 200 (JArr [])) /\
    (forall t m, json_parse t = None ->
       post_related json_parse req (GenOk t m) = mkJsonResponse 200 (JArr [])) /\
    ((rl_lastMessage req = None \/ rl_lastResponse req = None) ->
       forall gen, post_related json_parse req gen = mkJsonResponse 200 (JArr [])) /\
    (forall lm lr m, rl_lastMessage req = Some lm -> rl_lastResponse req = Some lr ->
       post_related json_parse req (GenOk "[]" m) = mkJsonResponse 200 (JArr [])).
Proof.
  intros Hp req. unfold post_related, related_try.
  split; [|split; [|split]].
  - intros e. destruct (rl_lastMessage req), (rl_lastResponse req); reflexivity.
  - intros t m Ht. rewrite Ht. destruct (rl_lastMessage req), (rl_lastResponse req); reflexivity.
  - intros [H|H] gen; rewrite H; [reflexivity|]. destruct (rl_lastMessage req); reflexivity.
  - intros lm lr m H1 H2. rewrite H1, H2, Hp. reflexivity.
Qed.

(** Witnesses: the theorems above applied at concrete inputs. *)
Lemma generated_answer_returned_witness :
  existsb is_gen_event (snd (fst run1)) = true /\ snd run1 = Ok (Json200 "500 mg" "gemini-2.0-flash").
Proof.
  pose proof (generated_answer_returned db_exec no_elevated first_turn "500 mg" "gemini-2.0-flash"
                db_alice) as H.
  vm_compute in H. split; [vm_compute; reflexivity|]. vm_compute. apply H. reflexivity.
Defined.

Lemma usage_limit_denies_witness :
  post_message db_exec no_elevated first_turn (GenOk "500 mg" "gemini-2.0-flash") (db_alice_limit, [])
  = ((db_alice_limit, app [] [EStore (SelectProfile "u1"); EStore (SelectUsage "u1")]),
     Ok (Status403 "LIMIT_REACHED" limit_message)).
Proof.
  apply (usage_limit_denies no_elevated first_turn _ alice 5%Z db_alice_limit []);
    [reflexivity | vm_compute; reflexivity | vm_compute; reflexivity | lia].
Defined.

Lemma usage_increment_allows_witness :
  map is_denied (snd (run_seq db_exec no_elevated
     (repeat (first_turn, GenOk "500 mg" "gemini-2.0-flash") 6) (db_alice, [])))
  = [false; false; false; false; false; true].
Proof.
  pose proof (usage_increment_allows no_elevated alice db_alice) as H.
  destruct H as (_ & _ & H); [vm_compute; reflexivity|].
  apply H; [vm_compute; reflexivity | reflexivity | repeat constructor].
Defined.

Lemma failed_generation_keeps_increment_witness :
  snd (post_message db_exec no_elevated first_turn (GenErr (mkPgError None (Some "timeout") None))
         (db_alice, []))
  = Ok (error_response (mkPgError None (Some "timeout") None)).
Proof.
  pose proof (failed_generation_keeps_increment no_elevated first_turn
                (mkPgError None (Some "timeout") None) alice db_alice [] eq_refl) as H.
  vm_compute in H. vm_compute. apply H; reflexivity.
Defined.

Lemma privileged_usage_untouched_witness :
  question_usage (fst (fst (run_seq db_exec admin_only
     (repeat (bob_turn, GenOk "5 mg/kg" "gemini-2.0-flash") 3) (db_bob, [])))) = question_usage db_bob.
Proof.
  pose proof (privileged_usage_untouched admin_only bob db_bob eq_refl
                (repeat (bob_turn, GenOk "5 mg/kg" "gemini-2.0-flash") 3) []
                ltac:(repeat constructor)) as H.
  destruct (run_seq db_exec admin_only _ _) as [[d t] rs].
  simpl. destruct H as [H _]. exact H.
Defined.

Lemma first_turn_title_witness :
  cs_title <$> chat_sessions (fst (fst (post_message db_exec no_elevated first_turn
     (GenOk "500 mg" "gemini-2.0-flash") (db_alice_session, [])))) !! "s1"
  = Some "Oct 16, 10:00 AM".
Proof.
  pose proof (first_turn_title no_elevated first_turn "500 mg" "gemini-2.0-flash" alice "s1"
                old_session db_alice_session eq_refl eq_refl eq_refl) as H.
  destruct (post_message db_exec no_elevated first_turn _ _) as [[d t] r] eqn:E.
  simpl. destruct H as [_ H]; [vm_compute in E; injection E as _ _ <-; reflexivity|].
  exact H.
Defined.

Lemma related_failure_is_empty_array_witness :
  post_related json_parse_empty (mkRelatedRequest (Some "q") (Some "a") None None)
    (GenOk "not json" "gemini-2.0-flash") = mkJsonResponse 200 (JArr []).
Proof.
  destruct (related_failure_is_empty_array json_parse_empty eq_refl
              (mkRelatedRequest (Some "q") (Some "a") None None)) as (_ & H & _).
  apply H. vm_compute. reflexivity.
Defined.

(** ** Further properties of the chat route *)

Lemma post_message_guest exec elevated req gen db tr :
  rq_user req = None ->
  post_message exec elevated req gen (db, tr) =
    ((db, app tr [EGen (formatHistory (rq_history req)) (rq_message req)]),
     Ok (match gen with GenOk t m => Json200 t m | GenErr e => error_response e end)).
Proof.
  intros Hu. rewrite post_message_eq. unfold access_check. rewrite Hu. unfold ret.
  destruct gen as [t m|e].
  - destruct (respond_ok exec req t m db tr) as [db' H]. rewrite H.
    unfold persist_part in H |- *. rewrite Hu in H |- *.
    unfold respond, generateMessage, bind, emit, ret in H. rewrite Hu in H. simpl in H.
    injection H as <-. reflexivity.
  - rewrite respond_err. reflexivity.
Qed.

(** X1. A request without a signed-in caller never touches the store, for
    every storage behaviour: the only call is the generation call, the
    database is left as it was and the answer is never a denial. *)
Theorem guest_request_no_storage exec elevated req gen db tr :
  rq_user req = None ->
  let '((db', tr'), r) := post_message exec elevated req gen (db, tr) in
  db' = db /\ tr' = app tr [EGen (formatHistory (rq_history req)) (rq_message req)] /\
  is_denied r = false.
Proof.
  intros Hu. rewrite (post_message_guest exec elevated req gen db tr Hu).
  split; [reflexivity|]. split; [reflexivity|]. destruct gen; reflexivity.
Qed.

Lemma inert_events_chat db l :
  Forall inert_event l ->
  chat_sessions (replay db l) = chat_sessions db /\ chat_messages (replay db l) = chat_messages db.
Proof.
  revert db. induction l as [|ev l IH]; intros db Hl; [auto|].
  inversion Hl as [|? ? Hev Hl']; subst. unfold replay. simpl.
  fold (replay (replay_event db ev) l). destruct (IH (replay_event db ev) Hl') as [-> ->].
  destruct Hev as [Hev|Hev].
  - destruct ev as [q|]; [destruct q|]; simpl in Hev; try contradiction; simpl;
      repeat match goal with |- context [match ?x with _ => _ end] => destruct x end;
      auto.
  - destruct ev; [discriminate|]. auto.
Qed.

Lemma no_session_trace exec elevated req gen db tr :
  truthy (rq_sessionId req) = None ->
  let '((_, tr'), _) := post_message exec elevated req gen (db, tr) in
  exists l, tr' = app tr l /\ Forall inert_event l.
Proof.
  intros Hs.
  destruct (post_message_shape exec elevated req gen db tr)
    as (db1 & l & Hl & _ & [H | [_ (db2 & H)]]); rewrite H.
  - exists l. split; [reflexivity|]. eapply Forall_impl; [exact Hl|]. intros ev Hev. left; exact Hev.
  - eexists. split; [reflexivity|]. apply Forall_app. split.
    + eapply Forall_impl; [exact Hl|]. intros ev Hev. left; exact Hev.
    + constructor; [right; reflexivity|].
      destruct gen as [t m|e]; [|constructor].
      unfold persist_part. rewrite Hs. destruct (rq_user req); constructor.
Qed.

(** X2. A request whose [sessionId] is missing or empty makes no
    persistence call for any storage behaviour: its calls are the access
    check's and the generation call; on the store, [chat_sessions] and
    [chat_messages] are left as they were. *)
Theorem no_session_no_persistence elevated req gen db tr :
  truthy (rq_sessionId req) = None ->
  (forall exec,
     let '((_, tr'), _) := post_message exec elevated req gen (db, tr) in
     exists l, tr' = app tr l /\ Forall inert_event l) /\
  (let '((db', _), _) := post_message db_exec elevated req gen (db, tr) in
   chat_sessions db' = chat_sessions db /\ chat_messages db' = chat_messages db).
Proof.
  intros Hs. split.
  - intros exec. apply no_session_trace. exact Hs.
  - pose proof (no_session_trace db_exec elevated req gen db tr Hs) as H.
    destruct (post_message db_exec elevated req gen (db, tr)) as [[db' tr'] r] eqn:E.
    destruct H as (l & -> & Hl).
    rewrite (replays_eq _ _ _ _ _ _ (post_message_replays elevated req gen) E).
    apply inert_events_chat. exact Hl.
Qed.

Lemma post_message_usage_step elevated req gen db tr :
  let '((db', _), _) := post_message db_exec elevated req gen (db, tr) in
  question_usage db' = question_usage db \/
  exists u, rq_user req = Some u /\ (usage_count db (au_id u) < 5)%Z /\
    question_usage db' = <[au_id u := (usage_count db (au_id u) + 1)%Z]> (question_usage db).
Proof.
  destruct (rq_user req) as [u|] eqn:Hu.
  - destruct (hasUnlimitedAccess elevated (allRoles (profiles db !! au_id u) u)) eqn:Hp.
    + pose proof (post_message_priv elevated req gen u db tr Hu Hp) as H.
      destruct (post_message db_exec elevated req gen (db, tr)) as [[db' tr'] r].
      left. apply H.
    + pose proof (post_message_nonpriv elevated req gen u db tr Hu Hp) as H. cbv zeta in H.
      destruct (post_message db_exec elevated req gen (db, tr)) as [[db' tr'] r].
      destruct H as (_ & _ & _ & H).
      destruct (5 <=? usage_count db (au_id u))%Z eqn:E5.
      * left. apply H.
      * right. exists u. split; [reflexivity|]. split; [apply Z.leb_gt; exact E5|]. apply H.
  - rewrite (post_message_guest db_exec elevated req gen db tr Hu). left. reflexivity.
Qed.

(** X3. On the store, a request changes [question_usage] at most in the
    caller's own row, and no stored count ever decreases. *)
Theorem usage_changes_only_caller elevated req gen db tr :
  let '((db', _), _) := post_message db_exec elevated req gen (db, tr) in
  forall uid,
    (usage_count db uid <= usage_count db' uid)%Z /\
    (match rq_user req with Some u => uid <> au_id u | None => True end ->
     question_usage db' !! uid = question_usage db !! uid).
Proof.
  pose proof (post_message_usage_step elevated req gen db tr) as H.
  destruct (post_message db_exec elevated req gen (db, tr)) as [[db' tr'] r].
  intros uid. destruct H as [Hq | (u & Hu & Hlt & Hq)].
  - unfold usage_count. rewrite Hq. split; [lia|auto].
  - rewrite Hu. unfold usage_count at 2. rewrite Hq.
    destruct (decide (uid = au_id u)) as [->|Hne].
    + rewrite lookup_insert_eq. split; [lia|]. intros Hc. exfalso. exact (Hc eq_refl).
    + rewrite lookup_insert_ne by congruence. split; [unfold usage_count; lia|auto].
Qed.

(** X4. If every stored count is at most 5, it stays so after any sequence
    of requests from any callers. *)
Theorem usage_cap_preserved elevated reqs db tr :
  (forall uid c, question_usage db !! uid = Some c -> (c <= 5)%Z) ->
  let '((db', _), _) := run_seq db_exec elevated reqs (db, tr) in
  forall uid c, question_usage db' !! uid = Some c -> (c <= 5)%Z.
Proof.
  revert db tr. induction reqs as [|[req gen] reqs IH]; intros db tr Hcap; [exact Hcap|].
  simpl. pose proof (post_message_usage_step elevated req gen db tr) as H.
  destruct (post_message db_exec elevated req gen (db, tr)) as [[db1 tr1] r].
  assert (Hcap1 : forall uid c, question_usage db1 !! uid = Some c -> (c <= 5)%Z).
  { destruct H as [Hq | (u & _ & Hlt & Hq)]; rewrite Hq; [exact Hcap|].
    intros uid c Hc. destruct (decide (uid = au_id u)) as [->|Hne].
    - rewrite lookup_insert_eq in Hc. injection Hc as <-. lia.
    - rewrite lookup_insert_ne in Hc by congruence. exact (Hcap uid c Hc). }
  specialize (IH db1 tr1 Hcap1).
  destruct (run_seq db_exec elevated reqs (db1, tr1)) as [[db2 tr2] rs]. exact IH.
Qed.

Lemma persist_events_messages db req uid sid text fh m :
  chat_messages (replay db (EGen fh m :: persist_events req uid sid text fh))
  = app (chat_messages db)
      (match chat_sessions db !! sid with
       | Some _ => [mkChatMessage sid uid "user" (rq_message req); mkChatMessage sid uid "model" text]
       | None => [] end).
Proof.
  unfold replay, persist_events. simpl.
  destruct (chat_sessions db !! sid) as [s|] eqn:Es; simpl; rewrite ?Es; simpl; rewrite ?Es;
    simpl; rewrite ?Es;
    destruct (Nat.eqb (length fh) 0); simpl; unfold set_sessions, set_messages; simpl;
    rewrite ?lookup_insert_eq; simpl; rewrite ?Es, ?app_nil_r, <- ?app_assoc; reflexivity.
Qed.

(** X5. On the store, a request appends to [chat_messages] and rewrites
    nothing: a denied request appends nothing; otherwise it appends the
    user row and the model row when generation succeeded, the caller is
    signed in, a session id is given and its session row exists, and
    nothing in every other case. *)
Theorem turn_appends_rows elevated req gen db tr :
  let '((db', _), r) := post_message db_exec elevated req gen (db, tr) in
  chat_messages db' = app (chat_messages db) (if is_denied r then [] else turn_rows req gen db).
Proof.
  destruct (post_message_shape db_exec elevated req gen db tr)
    as (db1 & l & Hl & _ & [H | [Ha (db2 & H)]]); rewrite H.
  - rewrite (replays_eq _ _ _ _ _ _ (post_message_replays elevated req gen) H).
    simpl. rewrite app_nil_r. apply inert_events_chat.
    eapply Forall_impl; [exact Hl|]. intros ev Hev. left; exact Hev.
  - rewrite (replays_eq _ _ _ _ _ _ (post_message_replays elevated req gen) H).
    rewrite replay_app.
    assert (Hl' : Forall inert_event l)
      by (eapply Forall_impl; [exact Hl|]; intros ev Hev; left; exact Hev).
    destruct (inert_events_chat db l Hl') as [Hs Hm].
    replace (is_denied _) with false by (destruct gen; reflexivity).
    unfold turn_rows, persist_part.
    destruct gen as [t m|e].
    + destruct (rq_user req) as [u|]; [destruct (truthy (rq_sessionId req)) as [sid|]|].
      * rewrite persist_events_messages, Hs, Hm. reflexivity.
      * simpl. rewrite Hm, app_nil_r. reflexivity.
      * simpl. rewrite Hm, app_nil_r. reflexivity.
    + simpl. rewrite Hm, app_nil_r. reflexivity.
Qed.

(** ** Properties of the account and settings routes *)

(** X6. With a profile row and a working store, PUT /preferences stores and
    answers the merge of the stored preferences with the update, each key
    of the update winning and every other stored key kept; GET
    /preferences then answers the same object, and no other row changes. *)
Theorem preferences_merge_round_trip t uid row updates :
  t !! uid = Some row ->
  let '(t', r) := put_preferences no_faults t uid updates in
  exists p,
    r = RPrefsSaved p /\ snd (get_preferences no_faults t' uid) = RPrefs p /\
    (forall k, p !! k = match updates !! k with
                        | Some v => Some v
                        | None => default ∅ (pf_preferences row) !! k end) /\
    (forall id, id <> uid -> t' !! id = t !! id).
Proof.
  intros Ht. unfold put_preferences, get_preferences, profile_exec, no_faults. simpl.
  rewrite Ht. simpl. rewrite lookup_insert_eq. simpl.
  eexists. split; [reflexivity|]. split; [reflexivity|]. split.
  - intros k. destruct (updates !! k) as [v|] eqn:Eu.
    + rewrite lookup_union_l' by (rewrite Eu; eexists; reflexivity). exact Eu.
    + rewrite lookup_union_r by exact Eu. reflexivity.
  - intros id Hne. apply lookup_insert_ne. congruence.
Qed.

(** X7. When the read of the stored preferences fails and the write goes
    through, PUT /preferences replaces the stored object by the update
    alone: every stored key the update does not name is lost, and the
    answer still reports success. *)
Theorem preferences_failed_read_overwrites t uid row updates e :
  t !! uid = Some row ->
  put_preferences (read_fails e) t uid updates
  = (<[uid := set_prefs row updates]> t, RPrefsSaved updates).
Proof.
  intros Ht. unfold put_preferences, profile_exec, read_fails. simpl. rewrite Ht.
  unfold prefs_or_empty. simpl. rewrite (right_id_L ∅ (∪) updates). reflexivity.
Qed.

(** X8. On a working store, sending the same preferences update twice
    leaves the table and the answer as after the first. *)
Theorem put_preferences_idempotent t uid updates :
  let '(t1, r1) := put_preferences no_faults t uid updates in
  put_preferences no_faults t1 uid updates = (t1, r1).
Proof.
  unfold put_preferences, profile_exec, no_faults. simpl.
  destruct (t !! uid) as [row|] eqn:Ht; simpl; rewrite ?Ht; simpl.
  - rewrite lookup_insert_eq. simpl. unfold prefs_or_empty. simpl.
    rewrite (assoc_L (∪) updates updates), (idemp_L (∪) updates).
    rewrite insert_insert_eq. reflexivity.
  - reflexivity.
Qed.

(** X9. For a caller with no profile row on a working store, PUT
    /preferences and POST /logo both answer success while storing nothing
    (the preferences answer is the update itself, the logo answer carries
    no profile), GET /preferences answers the empty object, GET /me answers
    the auth fallback with an empty full name when the metadata has none,
    and POST /accept-terms answers 500 with the no-rows message. *)
Theorem missing_profile_row_routes t u updates url now :
  t !! acc_id u = None ->
  put_preferences no_faults t (acc_id u) updates = (t, RPrefsSaved updates) /\
  post_logo no_faults t (acc_id u) url = (t, RLogo None) /\
  get_preferences no_faults t (acc_id u) = (t, RPrefs ∅) /\
  get_me no_faults t u
    = (t, RBasic (acc_id u) (acc_email u) (or_default (acc_meta_full_name u) EmptyString)) /\
  post_accept_terms no_faults t (acc_id u) now = (t, R500 (message no_rows_error)).
Proof.
  intros Ht.
  unfold put_preferences, post_logo, get_preferences, get_me, post_accept_terms,
    profile_exec, no_faults, prefs_or_empty.
  simpl. rewrite ?Ht. simpl. rewrite (right_id_L ∅ (∪) updates).
  repeat split; reflexivity.
Qed.

(** X10. With a profile row on a working store, POST /accept-terms sets
    that row's [accepted_terms_at], keeps its other columns and every other
    row, and answers with the updated row. *)
Theorem accept_terms_updates_row t uid row now :
  t !! uid = Some row ->
  let '(t', r) := post_accept_terms no_faults t uid now in
  t' !! uid = Some (mkProfileRow (pf_logo_url row) (pf_preferences row) (Some now)) /\
  r = RTerms (t' !! uid) /\
  (forall id, id <> uid -> t' !! id = t !! id).
Proof.
  intros Ht. unfold post_accept_terms, profile_exec, no_faults. simpl. rewrite Ht. simpl.
  rewrite lookup_insert_eq. split; [reflexivity|]. split; [reflexivity|].
  intros id Hne. apply lookup_insert_ne. congruence.
Qed.

(** ** Properties of the speech route *)


(** Witnesses of the properties above, at concrete inputs. *)
Lemma guest_request_no_storage_witness :
  fst (fst (post_message db_exec no_elevated guest_turn (GenOk "500 mg" "gemini-2.0-flash")
              (db_alice, []))) = db_alice.
Proof.
  pose proof (guest_request_no_storage db_exec no_elevated guest_turn
                (GenOk "500 mg" "gemini-2.0-flash") db_alice [] eq_refl) as H.
  destruct (post_message db_exec no_elevated guest_turn _ _) as [[d t] r].
  destruct H as [H _]. exact H.
Defined.

Lemma no_session_no_persistence_witness :
  chat_messages (fst (fst (post_message db_exec admin_only bob_turn
                             (GenOk "5 mg/kg" "gemini-2.0-flash") (db_bob, []))))
  = chat_messages db_bob.
Proof.
  destruct (no_session_no_persistence admin_only bob_turn (GenOk "5 mg/kg" "gemini-2.0-flash")
              db_bob [] eq_refl) as [_ H].
  destruct (post_message db_exec admin_only bob_turn _ _) as [[d t] r].
  destruct H as [_ H]. exact H.
Defined.

Lemma usage_cap_preserved_witness :
  exists c, question_usage (fst (fst (run_seq db_exec no_elevated
     (repeat (first_turn, GenOk "500 mg" "gemini-2.0-flash") 7) (db_alice, []))))
            !! "u1" = Some c /\ (c <= 5)%Z.
Proof.
  pose proof (usage_cap_preserved no_elevated
                (repeat (first_turn, GenOk "500 mg" "gemini-2.0-flash") 7) db_alice []
                ltac:(intros uid c Hc; simpl in Hc; rewrite lookup_empty in Hc; discriminate))
    as H.
  assert (Hd : question_usage (fst (fst (run_seq db_exec no_elevated
                 (repeat (first_turn, GenOk "500 mg" "gemini-2.0-flash") 7) (db_alice, []))))
               !! "u1" = Some 5%Z) by (vm_compute; reflexivity).
  revert Hd. destruct (run_seq db_exec no_elevated _ _) as [[d t] rs]. simpl. intros Hd.
  exists 5%Z. split; [exact Hd | exact (H "u1" 5%Z Hd)].
Defined.

Lemma preferences_merge_round_trip_witness :
  exists p, snd (put_preferences no_faults table_u1 "u1" prefs_update) = RPrefsSaved p /\
            p !! "region" = Some (JStr "Europe") /\ p !! "language" = Some (JStr "de").
Proof.
  pose proof (preferences_merge_round_trip table_u1 "u1" row_u1 prefs_update eq_refl) as H.
  destruct (put_preferences no_faults table_u1 "u1" prefs_update) as [t' r].
  destruct H as (p & Hr & _ & Hk & _). exists p. split; [exact Hr|].
  rewrite !Hk. split; vm_compute; reflexivity.
Defined.

Lemma preferences_failed_read_overwrites_witness :
  snd (get_preferences no_faults
         (fst (put_preferences (read_fails storage_down) table_u1 "u1" prefs_update)) "u1")
  = RPrefs prefs_update.
Proof.
  rewrite (preferences_failed_read_overwrites table_u1 "u1" row_u1 prefs_update storage_down
             eq_refl).
  vm_compute. reflexivity.
Defined.

Lemma missing_profile_row_routes_witness :
  put_preferences no_faults table_u1 "u3" prefs_update = (table_u1, RPrefsSaved prefs_update) /\
  post_accept_terms no_faults table_u1 "u3" "2026-10-16T10:00:00.000Z"
  = (table_u1, R500 (message no_rows_error)).
Proof.
  destruct (missing_profile_row_routes table_u1 carol prefs_update None
              "2026-10-16T10:00:00.000Z" eq_refl) as (H1 & _ & _ & _ & H5).
  split; [exact H1 | exact H5].
Defined.

Lemma accept_terms_updates_row_witness :
  fst (post_accept_terms no_faults table_u1 "u1" "2026-10-16T10:00:00.000Z") !! "u1"
  = Some (mkProfileRow None (Some prefs_en) (Some "2026-10-16T10:00:00.000Z")).
Proof.
  pose proof (accept_terms_updates_row table_u1 "u1" row_u1 "2026-10-16T10:00:00.000Z" eq_refl)
    as H.
  destruct (post_accept_terms no_faults table_u1 "u1" _) as [t' r].
  destruct H as [H _]. exact H.
Defined.

